(** * gmso.core.virtual_site: a shallow embedding of [VirtualSite]

    The class [VirtualSite] of [gmso/core/virtual_site.py] is a pydantic
    model with the backing fields [parent_sites_], [charge_] and
    [virtual_type_], two read-only properties ([parent_sites],
    [virtual_type]), the method [position] and [__repr__].  (The declared
    holder [position_] is neither read nor written by any of them.)

    Methods are embedded as computations of a small state-and-exception
    monad whose state is the instance together with everything reachable
    from it (its parent sites and its virtual type), so that both what a
    call yields and what it leaves behind can be stated. *)

From Stdlib Require Import String Ascii List Bool QArith.
From Stdlib Require Import Lia.
Import ListNotations.

Local Open Scope string_scope.

(** ** Python outcomes *)

(** The exception classes imported from [gmso.exceptions];
    [ParentSiteMismatchError], which only the specification names; and the
    built-in [AttributeError] of an attribute read on [None]. *)
Inductive exn : Type :=
| MissingPotentialError
| NotYetImplementedWarning
| ParentSiteMismatchError
| AttributeError.

(** A call either returns a value or raises an exception with its message. *)
Inductive outcome (A : Type) : Type :=
| Return (a : A)
| Raise (e : exn) (msg : string).

Arguments Return {A} a.
Arguments Raise {A} e msg.

(** [d.get(key, default)] on an instance [__dict__]: a backing field is
    [None] when its key is absent and [Some v] when it holds [v]. *)
Definition dict_get {A : Type} (entry : option A) (default : A) : A :=
  match entry with
  | Some v => v
  | None => default
  end.

(** A dictionary with string keys and values, in insertion order. *)
Definition alist : Type := list (string * string).

(** [d.get(key)] *)
Fixpoint alist_get (k : string) (d : alist) : option string :=
  match d with
  | [] => None
  | (k', v) :: rest => if String.eqb k k' then Some v else alist_get k rest
  end.

(** [key in d] *)
Definition has_key (k : string) (d : alist) : bool :=
  existsb (fun kv => String.eqb k (fst kv)) d.

(** What a [dict(...)] call yields: the dictionary, or the [TypeError]
    "dict() got multiple values for keyword argument" naming the key. *)
Inductive dict_result : Type :=
| Built (d : alist)
| DuplicateKeyword (k : string).

(** [dict] called with two unpacked mappings [a] and [b]: the keywords
    start as the entries of [a]; every entry of [b] is added in turn,
    unless its key is already there, which raises. *)
Fixpoint dict_kwargs (a b : alist) : dict_result :=
  match b with
  | [] => Built a
  | (k, v) :: rest =>
      if has_key k a then DuplicateKeyword k
      else dict_kwargs (a ++ [(k, v)])%list rest
  end.

(** ** Collaborators of the class *)

(** A 3-vector of coordinates, in nanometres. *)
Definition vec3 : Type := (Q * Q * Q)%type.

Definition vec3_eq (a b : vec3) : Prop :=
  let '(ax, ay, az) := a in
  let '(bx, by_, bz) := b in
  ax == bx /\ ay == by_ /\ az == bz.

(** Modelled from the spec: the generic [Site] of [gmso.abc.abstract_site]
    is not part of this file.  A site has a name, a position that can be
    queried, and a representation of its own ([site.__repr__()]). *)
Record Site : Type := mkSite {
  site_name : string;
  site_position : vec3;
  site_repr : string
}.

(** Symbolic position expressions over the parent positions [r_i], [r_j], ... *)
Inductive expr : Type :=
| Var (x : string)
| Scale (c : Q) (e : expr)
| Add (e1 e2 : expr).

Module VirtualType.

(** Modelled from the spec: the expression holder owned by a virtual type
    stores a symbolic expression and declares its independent variables. *)
Record VirtualPositionType : Type := mkVirtualPositionType {
  expression : expr;
  independent_variables : list string
}.

(** Modelled from the spec: [VirtualType] of [gmso.core.virtual_type] is
    imported, not defined, by this file.  It bundles an optional position
    expression, an optional potential expression and an optional default
    charge (in elementary charges). *)
Record t : Type := mkVirtualType {
  virtual_position : option VirtualPositionType;
  virtual_potential : option expr;
  charge : option Q
}.

End VirtualType.

(** ** The class [VirtualSite] *)

Module VirtualSite.

(** The instance state.  [name] is the inherited [Site.name];
    [parent_sites_] is [None] when the key is missing from [__dict__];
    [charge_] and [virtual_type_] are [Optional] fields read with
    [__dict__.get(key)], which yields [None] both for a missing key and
    for a stored [None]. *)
Record t : Type := mkVirtualSite {
  name : string;
  parent_sites_ : option (list Site);
  charge_ : option Q;
  virtual_type_ : option VirtualType.t
}.

(** Computations on an instance: an outcome and the instance afterwards. *)
Definition M (A : Type) : Type := t -> outcome A * t.

Definition ret {A : Type} (a : A) : M A :=
  fun self => (Return a, self).

Definition raise {A : Type} (e : exn) (msg : string) : M A :=
  fun self => (Raise e msg, self).

Definition bind {A B : Type} (m : M A) (k : A -> M B) : M B :=
  fun self =>
    match m self with
    | (Return a, self') => k a self'
    | (Raise e msg, self') => (Raise e msg, self')
    end.

(** Reading an attribute of [self]. *)
Definition getattr {A : Type} (field : t -> A) : M A :=
  fun self => (Return (field self), self).

Notation "x <- m ;; k" := (bind m (fun x => k))
  (at level 100, m at next level, right associativity).

(** [parent_sites]: [self.__dict__.get("parent_sites_", [])]. *)
Definition parent_sites : M (list Site) :=
  entry <- getattr parent_sites_ ;;
  ret (dict_get entry []).

(** [virtual_type]: [self.__dict__.get("virtual_type_")]. *)
Definition virtual_type : M (option VirtualType.t) :=
  getattr virtual_type_.

(** The messages of the exceptions raised by [position]. *)
Definition msg_no_virtual_type : string :=
  "No VirtualType associated with this VirtualSite.".

Definition msg_no_virtual_position : string :=
  "No VirtualPositionType associated with this VirtualType.".

Definition msg_not_yet_implemented : string :=
  "Need a functional to call from self.virtual_type.virtual_position, and plug in ri, rj, rk etc.".

(** [position].  [not x] on an optional model instance is true exactly
    when [x] is [None]: the instance classes are plain data carriers
    without a truth-value method of their own.  The property
    [self.virtual_type] is read once for each of the two tests. *)
Definition position : M vec3 :=
  vt <- virtual_type ;;
  match vt with
  | None =>
      raise MissingPotentialError msg_no_virtual_type
  | Some _ =>
      vt' <- virtual_type ;;
      match vt' with
      | None =>
          raise AttributeError
                "'NoneType' object has no attribute 'virtual_position'"
      | Some ty =>
          match VirtualType.virtual_position ty with
          | None =>
              raise MissingPotentialError msg_no_virtual_position
          | Some _ =>
              raise NotYetImplementedWarning msg_not_yet_implemented
          end
      end
  end.

(** [__repr__]: [self.name + ": -".join(site.__repr__() for site in
    self.parent_sites)].  The method call binds tighter than [+], so the
    separator of the join is the three characters [": -"]. *)
Definition __repr__ : M string :=
  n <- getattr name ;;
  sites <- parent_sites ;;
  ret (n ++ String.concat ": -" (map site_repr sites)).

(** The aliases this class adds to those of [Site] in [model_config]. *)
Definition own_aliases : alist :=
  [("charge", "charge_");
   ("virtual_type", "virtual_type_");
   ("parent_sites", "parent_sites_")].

(** [model_config]'s [alias_to_fields]:
    a [dict] call that unpacks [Site.model_config["alias_to_fields"]] and
    then the three aliases of this class, evaluated when the class body
    runs.  The aliases of [Site] are a parameter. *)
Definition alias_to_fields (site_aliases : alist) : dict_result :=
  dict_kwargs site_aliases own_aliases.

(** The instance built from the declared field defaults alone
    ([default=[]] for the parents, [None] for charge and virtual type). *)
Definition default_instance (n : string) : t :=
  mkVirtualSite n (Some []) None None.

End VirtualSite.

Import VirtualSite.

(** ** Concrete instances *)

Definition atom_origin : Site := mkSite "a1" (0, 0, 0) "A".
Definition atom_two : Site := mkSite "a2" (2, 0, 0) "B".

(** [0.5*r_i + 0.5*r_j] *)
Definition midpoint : expr :=
  Add (Scale (1 # 2) (Var "r_i")) (Scale (1 # 2) (Var "r_j")).

Definition midpoint_type : VirtualType.t :=
  VirtualType.mkVirtualType
    (Some (VirtualType.mkVirtualPositionType midpoint ["r_i"; "r_j"]))
    None None.

Definition midpoint_site : VirtualSite.t :=
  mkVirtualSite "vs" (Some [atom_origin; atom_two]) None (Some midpoint_type).

(** An expression of three independent variables. *)
Definition centroid : expr :=
  Add (Scale (1 # 3) (Var "r_i"))
      (Add (Scale (1 # 3) (Var "r_j")) (Scale (1 # 3) (Var "r_k"))).

Definition centroid_type : VirtualType.t :=
  VirtualType.mkVirtualType
    (Some (VirtualType.mkVirtualPositionType centroid ["r_i"; "r_j"; "r_k"]))
    None (Some (1 # 2)).

Definition underfilled_site : VirtualSite.t :=
  mkVirtualSite "vs" (Some [atom_origin; atom_two]) None (Some centroid_type).

Definition untyped_site : VirtualSite.t :=
  mkVirtualSite "vs" (Some [atom_origin; atom_two]) (Some (-1)%Q) None.

Definition bare_type : VirtualType.t :=
  VirtualType.mkVirtualType None None (Some (1 # 2)).

Definition unpositioned_site : VirtualSite.t :=
  mkVirtualSite "vs" (Some [atom_origin]) None (Some bare_type).

(** Whether the site has a virtual type that carries a position expression. *)
Definition position_specified (self : VirtualSite.t) : bool :=
  match virtual_type_ self with
  | Some ty =>
      match VirtualType.virtual_position ty with
      | Some _ => true
      | None => false
      end
  | None => false
  end.

(** [occurs m s]: the string [m] occurs in [s] as a contiguous run. *)
Fixpoint occurs (m s : string) : bool :=
  String.prefix m s ||
  match s with
  | EmptyString => false
  | String _ s' => occurs m s'
  end.

(** ** Computations that only read *)

(** A computation preserves the instance when every run hands back the
    state it was started in. *)
Definition preserves {A : Type} (m : M A) : Prop :=
  forall self, snd (m self) = self.

Lemma ret_preserves {A : Type} (a : A) : preserves (ret a).
Proof. intro self. reflexivity. Qed.

Lemma raise_preserves {A : Type} (e : exn) (msg : string) :
  preserves (@raise A e msg).
Proof. intro self. reflexivity. Qed.

Lemma getattr_preserves {A : Type} (field : VirtualSite.t -> A) :
  preserves (getattr field).
Proof. intro self. reflexivity. Qed.

Lemma bind_preserves {A B : Type} (m : M A) (k : A -> M B) :
  preserves m -> (forall a, preserves (k a)) -> preserves (bind m k).
Proof.
  intros Hm Hk self. unfold bind.
  specialize (Hm self).
  destruct (m self) as [[a | e msg] self']; simpl in Hm; subst self'.
  - apply Hk.
  - reflexivity.
Qed.

Create HintDb frame.
#[local] Hint Resolve ret_preserves raise_preserves getattr_preserves : frame.

(** Peels the binds of a computation and splits on the values it tests. *)
Ltac read_only :=
  repeat first
    [ apply bind_preserves; [ | intros [ ? | ] ]
    | apply bind_preserves; [ | intros ? ]
    | match goal with
      | |- preserves (match ?x with _ => _ end) => destruct x
      end
    | solve [ auto with frame ] ].

Lemma virtual_type_preserves : preserves virtual_type.
Proof. unfold virtual_type. read_only. Qed.

Lemma parent_sites_preserves : preserves parent_sites.
Proof. unfold parent_sites. read_only. Qed.

#[local] Hint Resolve virtual_type_preserves parent_sites_preserves : frame.

Lemma position_preserves : preserves position.
Proof. unfold position. read_only. Qed.

Lemma repr_preserves : preserves __repr__.
Proof. unfold __repr__. read_only. Qed.

(** The outcome of [position] as a function of the two things it tests. *)
Lemma position_outcome (self : VirtualSite.t) :
  fst (position self) =
  match virtual_type_ self with
  | None => Raise MissingPotentialError msg_no_virtual_type
  | Some ty =>
      match VirtualType.virtual_position ty with
      | None => Raise MissingPotentialError msg_no_virtual_position
      | Some _ => Raise NotYetImplementedWarning msg_not_yet_implemented
      end
  end.
Proof.
  destruct self as [n ps c [[[vp | ] pot q] | ]]; reflexivity.
Qed.

(** ** Occurrences in strings *)

Lemma prefix_app (m t : string) : String.prefix m (m ++ t) = true.
Proof.
  induction m as [ | a m IH]; simpl.
  - destruct t; reflexivity.
  - destruct (ascii_dec a a) as [_ | Hne]; [exact IH | contradiction].
Qed.

Lemma occurs_prefix (m s : string) :
  String.prefix m s = true -> occurs m s = true.
Proof.
  intro H. destruct s; cbn [occurs]; rewrite H; reflexivity.
Qed.

Lemma occurs_app (p m t : string) : occurs m (p ++ m ++ t) = true.
Proof.
  induction p as [ | a p IH].
  - change (occurs m (m ++ t) = true).
    apply occurs_prefix, prefix_app.
  - change (occurs m (String a (p ++ m ++ t)) = true).
    cbn [occurs]. rewrite IH. apply orb_true_r.
Qed.

(** ** position *)

(** C1, as stated, fails: for the site whose type carries
    [0.5*r_i + 0.5*r_j] and whose parents sit at (0,0,0) and (2,0,0),
    [position()] does not return the vector (1,0,0). *)
Lemma position_midpoint_returns_no_vector :
  ~ (exists v : vec3,
        fst (position midpoint_site) = Return v /\ vec3_eq v (1, 0, 0)).
Proof.
  intros [v [H _]]. rewrite position_outcome in H. discriminate H.
Qed.

(** C1, amended: for every site whose virtual type carries the expression
    [0.5*r_i + 0.5*r_j] and whose two parents are at (0,0,0) and (2,0,0),
    [position()] raises [NotYetImplementedWarning]; the expression is not
    evaluated and no vector is returned. *)
Theorem position_midpoint_not_yet_implemented
    (self : VirtualSite.t) (ty : VirtualType.t)
    (vp : VirtualType.VirtualPositionType) :
  virtual_type_ self = Some ty ->
  VirtualType.virtual_position ty = Some vp ->
  VirtualType.expression vp = midpoint ->
  map site_position (dict_get (parent_sites_ self) []) =
    [(0, 0, 0); (2, 0, 0)] ->
  fst (position self) = Raise NotYetImplementedWarning msg_not_yet_implemented
  /\ forall v : vec3, fst (position self) <> Return v.
Proof.
  intros Hty Hvp _ _.
  rewrite position_outcome, Hty, Hvp.
  split; [reflexivity | discriminate].
Qed.

Lemma position_midpoint_not_yet_implemented_witness :
  fst (position midpoint_site) =
    Raise NotYetImplementedWarning msg_not_yet_implemented
  /\ forall v : vec3, fst (position midpoint_site) <> Return v.
Proof.
  apply (position_midpoint_not_yet_implemented
           midpoint_site midpoint_type
           (VirtualType.mkVirtualPositionType midpoint ["r_i"; "r_j"]));
    reflexivity.
Defined.

(** C2, as stated, fails: with three declared independent variables and
    two parent sites, [position()] does not fail with
    [ParentSiteMismatchError]. *)
Lemma position_underfilled_no_mismatch_error :
  ~ (exists msg : string,
        fst (position underfilled_site) = Raise ParentSiteMismatchError msg).
Proof.
  intros [msg H]. rewrite position_outcome in H. discriminate H.
Qed.

(** C2, amended: for every site whose virtual type has a position
    expression declaring three independent variables while only two parent
    sites are held, [position()] fails with [NotYetImplementedWarning] (the
    parent count is not validated), and it never returns a vector, be it
    partial, truncated or zero-padded. *)
Theorem position_underfilled_not_yet_implemented
    (self : VirtualSite.t) (ty : VirtualType.t)
    (vp : VirtualType.VirtualPositionType) :
  virtual_type_ self = Some ty ->
  VirtualType.virtual_position ty = Some vp ->
  List.length (VirtualType.independent_variables vp) = 3%nat ->
  List.length (dict_get (parent_sites_ self) []) = 2%nat ->
  fst (position self) = Raise NotYetImplementedWarning msg_not_yet_implemented
  /\ forall v : vec3, fst (position self) <> Return v.
Proof.
  intros Hty Hvp _ _.
  rewrite position_outcome, Hty, Hvp.
  split; [reflexivity | discriminate].
Qed.

Lemma position_underfilled_not_yet_implemented_witness :
  fst (position underfilled_site) =
    Raise NotYetImplementedWarning msg_not_yet_implemented
  /\ forall v : vec3, fst (position underfilled_site) <> Return v.
Proof.
  apply (position_underfilled_not_yet_implemented
           underfilled_site centroid_type
           (VirtualType.mkVirtualPositionType centroid ["r_i"; "r_j"; "r_k"]));
    reflexivity.
Defined.

(** C3: a site with no virtual type assigned makes [position()] raise
    [MissingPotentialError]. *)
Theorem position_without_virtual_type (self : VirtualSite.t) :
  fst (virtual_type self) = Return None ->
  fst (position self) = Raise MissingPotentialError msg_no_virtual_type.
Proof.
  unfold virtual_type, getattr. simpl. intro H.
  injection H as H. rewrite position_outcome, H. reflexivity.
Qed.

Lemma position_without_virtual_type_witness :
  fst (position untyped_site) = Raise MissingPotentialError msg_no_virtual_type.
Proof.
  apply (position_without_virtual_type untyped_site). reflexivity.
Defined.

(** C4: a site whose virtual type is assigned but carries no position
    expression makes [position()] raise [MissingPotentialError]. *)
Theorem position_without_virtual_position
    (self : VirtualSite.t) (ty : VirtualType.t) :
  fst (virtual_type self) = Return (Some ty) ->
  VirtualType.virtual_position ty = None ->
  fst (position self) = Raise MissingPotentialError msg_no_virtual_position.
Proof.
  unfold virtual_type, getattr. simpl. intros H Hvp.
  injection H as H. rewrite position_outcome, H, Hvp. reflexivity.
Qed.

Lemma position_without_virtual_position_witness :
  fst (position unpositioned_site) =
    Raise MissingPotentialError msg_no_virtual_position.
Proof.
  apply (position_without_virtual_position unpositioned_site bare_type);
    reflexivity.
Defined.

(** C9: [position()] never returns normally.  Every call raises:
    [MissingPotentialError] when the virtual type or its position
    expression is absent, [NotYetImplementedWarning] otherwise; no input
    yields a vector. *)
Theorem position_always_raises (self : VirtualSite.t) :
  (exists msg : string,
      fst (position self) =
        Raise (if position_specified self
               then NotYetImplementedWarning
               else MissingPotentialError) msg)
  /\ forall v : vec3, fst (position self) <> Return v.
Proof.
  rewrite position_outcome. unfold position_specified.
  destruct (virtual_type_ self) as [ty | ].
  - destruct (VirtualType.virtual_position ty);
      (split; [eexists; reflexivity | discriminate]).
  - split; [eexists; reflexivity | discriminate].
Qed.

(** C6: two successive calls of [position()] on a site yield the same
    outcome, the same value or the same failure; and the outcome is fixed
    by the parent sites and the virtual type alone. *)
Theorem position_deterministic
    (self : VirtualSite.t) (n n' : string) (c c' : option Q)
    (held : option (list Site)) (ty : option VirtualType.t) :
  (let first := position self in
   let second := position (snd first) in
   fst second = fst first)
  /\ fst (position (mkVirtualSite n held c ty)) =
     fst (position (mkVirtualSite n' held c' ty)).
Proof.
  split.
  - simpl. rewrite position_preserves. reflexivity.
  - rewrite !position_outcome. reflexivity.
Qed.

(** C7: [position()] leaves the instance as it found it, whatever the
    outcome: the parent list, the virtual type and the state of every
    parent site are unchanged. *)
Theorem position_frame (self : VirtualSite.t) :
  let after := snd (position self) in
  after = self
  /\ fst (parent_sites after) = fst (parent_sites self)
  /\ fst (virtual_type after) = fst (virtual_type self)
  /\ parent_sites_ after = parent_sites_ self
  /\ virtual_type_ after = virtual_type_ self.
Proof.
  simpl. rewrite position_preserves. repeat split.
Qed.

(** ** The accessors *)

(** C10: the [parent_sites] accessor is total and only reads: it returns
    the stored parent list as it is, in its order, and the empty list when
    no parent list is held; the [virtual_type] accessor returns [None] when
    no type is set.  Neither raises, neither changes the instance. *)
Theorem accessors_total_and_pure
    (n : string) (c : option Q) (ty : option VirtualType.t)
    (held : option (list Site)) (sites : list Site) :
  parent_sites (mkVirtualSite n (Some sites) c ty) =
    (Return sites, mkVirtualSite n (Some sites) c ty)
  /\ parent_sites (mkVirtualSite n None c ty) =
       (Return [], mkVirtualSite n None c ty)
  /\ virtual_type (mkVirtualSite n held c None) =
       (Return None, mkVirtualSite n held c None)
  /\ virtual_type (mkVirtualSite n held c ty) =
       (Return ty, mkVirtualSite n held c ty)
  /\ (exists l : list Site,
         fst (parent_sites (mkVirtualSite n held c ty)) = Return l).
Proof.
  repeat split.
  destruct held as [l | ]; eexists; reflexivity.
Qed.

(** ** charge *)

(** The class declares the field [charge_] (alias [charge], default
    [None]) and no property or method that computes a charge: what a site
    holds as its charge is what a read of that field yields. *)



(** ** __repr__ *)

(** What [__repr__] yields: the name, directly followed by the parents'
    representations joined by [": -"]. *)
Lemma repr_outcome (self : VirtualSite.t) :
  fst (__repr__ self) =
  Return (name self ++
          String.concat ": -" (map site_repr (dict_get (parent_sites_ self) []))).
Proof. reflexivity. Qed.

(** C8 fails on the code: for the site named [vs] with parents represented
    as [A] and [B], [__repr__] yields [vsA: -B], in which the hyphen-joined
    rendering [A-B] of the parents does not occur, whatever the name is
    combined with it. *)
Theorem repr_two_parents_not_hyphen_joined :
  fst (__repr__ midpoint_site) = Return "vsA: -B"
  /\ forall before after : string,
       fst (__repr__ midpoint_site) <>
       Return (before ++
               String.concat "-" (map site_repr [atom_origin; atom_two]) ++
               after).
Proof.
  split; [reflexivity | ].
  intros before after H.
  rewrite repr_outcome in H. injection H as H.
  pose proof (occurs_app before
                (String.concat "-" (map site_repr [atom_origin; atom_two]))
                after) as Hocc.
  simpl in H, Hocc. rewrite <- H in Hocc.
  vm_compute in Hocc. discriminate Hocc.
Qed.

(** ** Strings and joins *)

Lemma append_empty_r (s : string) : s ++ "" = s.
Proof. induction s as [ | a s IH]; simpl; [ | rewrite IH]; reflexivity. Qed.

Lemma append_assoc (a b c : string) : (a ++ b) ++ c = a ++ b ++ c.
Proof. induction a as [ | x a IH]; simpl; [ | rewrite IH]; reflexivity. Qed.

Lemma length_append (a b : string) :
  String.length (a ++ b) = (String.length a + String.length b)%nat.
Proof. induction a as [ | x a IH]; simpl; [ | rewrite IH]; reflexivity. Qed.

(** The join of a non-empty list, one element at a time. *)
Lemma concat_cons2 (sep x y : string) (l : list string) :
  String.concat sep (x :: y :: l) = x ++ sep ++ String.concat sep (y :: l).
Proof. reflexivity. Qed.

Lemma concat_snoc (sep x y : string) (l : list string) :
  String.concat sep ((x :: l) ++ [y])%list =
  String.concat sep (x :: l) ++ sep ++ y.
Proof.
  revert x. induction l as [ | z l IH]; intro x.
  - reflexivity.
  - change (String.concat sep (x :: (z :: l) ++ [y])%list =
            String.concat sep (x :: z :: l) ++ sep ++ y).
    rewrite concat_cons2.
    change (x ++ sep ++ String.concat sep ((z :: l) ++ [y])%list =
            (x ++ sep ++ String.concat sep (z :: l)) ++ sep ++ y).
    rewrite IH, !append_assoc. reflexivity.
Qed.

Lemma concat_length (sep x : string) (l : list string) :
  String.length (String.concat sep (x :: l)) =
  (String.length x + list_sum (map String.length l)
   + String.length sep * List.length l)%nat.
Proof.
  revert x. induction l as [ | y l IH]; intro x.
  - simpl. lia.
  - rewrite concat_cons2, !length_append, IH. simpl. lia.
Qed.

Lemma concat_in (sep r : string) (l : list string) :
  In r l -> exists p t : string, String.concat sep l = p ++ r ++ t.
Proof.
  induction l as [ | x l IH]; intro Hin; [destruct Hin | ].
  destruct l as [ | y l].
  - destruct Hin as [-> | []]. exists "", "". simpl.
    rewrite append_empty_r. reflexivity.
  - destruct Hin as [-> | Hin].
    + exists "", (sep ++ String.concat sep (y :: l)). reflexivity.
    + destruct (IH Hin) as [p [t E]].
      exists (x ++ sep ++ p), t.
      rewrite concat_cons2, E, !append_assoc. reflexivity.
Qed.

(** ** More on __repr__ *)

(** X1: for a site without parents, whether the parent list is empty or
    its key is missing, [__repr__] returns exactly the name. *)
Theorem repr_without_parents (self : VirtualSite.t) :
  fst (parent_sites self) = Return [] ->
  fst (__repr__ self) = Return (name self).
Proof.
  intro H. rewrite repr_outcome.
  unfold parent_sites, bind, getattr, ret in H. simpl in H.
  injection H as H. rewrite H. simpl. rewrite append_empty_r. reflexivity.
Qed.

Lemma repr_without_parents_witness :
  fst (__repr__ (mkVirtualSite "vs" None None (Some midpoint_type))) =
  Return "vs".
Proof.
  apply (repr_without_parents
           (mkVirtualSite "vs" None None (Some midpoint_type))).
  reflexivity.
Defined.

(** X2: with a single parent the name is followed directly by that
    parent's representation, with no separator; the result is the one of a
    parentless site whose name already ends with that representation. *)
Theorem repr_single_parent_glued
    (n : string) (s : Site) (c c' : option Q) (ty ty' : option VirtualType.t) :
  fst (__repr__ (mkVirtualSite n (Some [s]) c ty)) = Return (n ++ site_repr s)
  /\ fst (__repr__ (mkVirtualSite n (Some [s]) c ty)) =
     fst (__repr__ (mkVirtualSite (n ++ site_repr s) None c' ty')).
Proof.
  rewrite !repr_outcome. simpl. rewrite append_empty_r. split; reflexivity.
Qed.

(** X3: the length of [__repr__]'s result, for a site with at least one
    parent, is the length of the name plus the lengths of the parents'
    representations plus three characters for each parent after the first. *)
Theorem repr_length
    (n : string) (s : Site) (rest : list Site)
    (c : option Q) (ty : option VirtualType.t) :
  exists r : string,
    fst (__repr__ (mkVirtualSite n (Some (s :: rest)) c ty)) = Return r
    /\ String.length r =
       (String.length n
        + list_sum (map (fun p => String.length (site_repr p)) (s :: rest))
        + 3 * List.length rest)%nat.
Proof.
  eexists. split; [apply repr_outcome | ].
  unfold dict_get. cbn [name parent_sites_ map].
  rewrite length_append, concat_length, map_map, length_map.
  simpl. lia.
Qed.

(** X4: the result of [__repr__] always starts with the site's name. *)
Theorem repr_starts_with_name (self : VirtualSite.t) :
  exists r : string,
    fst (__repr__ self) = Return r /\ String.prefix (name self) r = true.
Proof.
  eexists. split; [apply repr_outcome | apply prefix_app].
Qed.

(** X5: the representation of every parent site occurs in the result of
    [__repr__]. *)
Theorem repr_mentions_every_parent (self : VirtualSite.t) (s : Site) :
  In s (dict_get (parent_sites_ self) []) ->
  exists r : string,
    fst (__repr__ self) = Return r /\ occurs (site_repr s) r = true.
Proof.
  intro Hin. eexists. split; [apply repr_outcome | ].
  apply (in_map site_repr) in Hin.
  destruct (concat_in ": -" _ _ Hin) as [p [t E]].
  rewrite E, <- append_assoc. apply occurs_app.
Qed.

Lemma repr_mentions_every_parent_witness :
  exists r : string,
    fst (__repr__ midpoint_site) = Return r
    /\ occurs (site_repr atom_two) r = true.
Proof.
  apply (repr_mentions_every_parent midpoint_site atom_two).
  simpl. right. left. reflexivity.
Defined.

(** X6: appending one more parent to a site that has at least one appends
    the separator [": -"] and the new parent's representation to the result
    of [__repr__]; the earlier part is unchanged. *)
Theorem repr_append_parent
    (n : string) (s : Site) (rest : list Site) (last : Site)
    (c : option Q) (ty : option VirtualType.t) :
  exists r : string,
    fst (__repr__ (mkVirtualSite n (Some (s :: rest)) c ty)) = Return r
    /\ fst (__repr__ (mkVirtualSite n (Some ((s :: rest) ++ [last])%list) c ty)) =
       Return (r ++ ": -" ++ site_repr last).
Proof.
  assert (E : map site_repr ((s :: rest) ++ [last])%list =
              ((site_repr s :: map site_repr rest) ++ [site_repr last])%list)
    by (rewrite map_app; reflexivity).
  eexists. split; [apply repr_outcome | ].
  change (Return (n ++ String.concat ": -"
                         (map site_repr ((s :: rest) ++ [last])%list)) =
          Return ((n ++ String.concat ": -"
                          (site_repr s :: map site_repr rest))
                  ++ ": -" ++ site_repr last)).
  rewrite E, concat_snoc, append_assoc. reflexivity.
Qed.

(** X7: given the parents' representations, the result of [__repr__]
    depends on the name and the parent list only: the charge and the
    virtual type are ignored, and a missing parent list is rendered like an
    empty one. *)
Theorem repr_ignores_charge_and_type
    (n : string) (held : option (list Site))
    (c c' : option Q) (ty ty' : option VirtualType.t) :
  fst (__repr__ (mkVirtualSite n held c ty)) =
    fst (__repr__ (mkVirtualSite n held c' ty'))
  /\ fst (__repr__ (mkVirtualSite n None c ty)) =
     fst (__repr__ (mkVirtualSite n (Some []) c ty)).
Proof.
  rewrite !repr_outcome. split; reflexivity.
Qed.

(** ** More on position *)

(** X8: the outcome of [position()] does not depend on the parent sites,
    the name or the charge override, nor on which expression and which
    independent variables a present position expression holds: neither the
    parents nor the expression are ever inspected. *)
Theorem position_ignores_parents_and_expression
    (n n' : string) (held held' : option (list Site)) (c c' : option Q)
    (ty : option VirtualType.t)
    (vp vp' : VirtualType.VirtualPositionType)
    (pot pot' : option expr) (q q' : option Q) :
  fst (position (mkVirtualSite n held c ty)) =
    fst (position (mkVirtualSite n' held' c' ty))
  /\ fst (position (mkVirtualSite n held c
                      (Some (VirtualType.mkVirtualType (Some vp) pot q)))) =
     fst (position (mkVirtualSite n' held' c'
                      (Some (VirtualType.mkVirtualType (Some vp') pot' q')))).
Proof.
  rewrite !position_outcome. split; reflexivity.
Qed.

(** X9: the message of the [MissingPotentialError] tells the cause: it is
    the "no VirtualType" message exactly when no virtual type is assigned,
    and the "no VirtualPositionType" message exactly when a type is
    assigned that carries no position expression. *)
Theorem position_message_tells_cause (self : VirtualSite.t) :
  (fst (position self) = Raise MissingPotentialError msg_no_virtual_type
   <-> fst (virtual_type self) = Return None)
  /\ (fst (position self) = Raise MissingPotentialError msg_no_virtual_position
      <-> exists ty : VirtualType.t,
            fst (virtual_type self) = Return (Some ty)
            /\ VirtualType.virtual_position ty = None).
Proof.
  rewrite position_outcome.
  unfold virtual_type, getattr. cbn [fst].
  destruct (virtual_type_ self) as [ty | ].
  - destruct (VirtualType.virtual_position ty) as [vp | ] eqn:Hvp.
    + split; split; intro H; try discriminate H.
      destruct H as [ty' [H Hnone]].
      injection H as <-. rewrite Hvp in Hnone. discriminate Hnone.
    + split; split; intro H; try discriminate H; try reflexivity.
      exists ty. split; [reflexivity | exact Hvp].
  - split; split; intro H; try discriminate H; try reflexivity.
    destruct H as [ty' [H _]]. discriminate H.
Qed.

(** X10: [__repr__] leaves the instance as it found it, so it can be
    interleaved with [position()] freely: either call yields the same
    outcome after the other as before it. *)
Theorem repr_frame (self : VirtualSite.t) :
  snd (__repr__ self) = self
  /\ fst (position (snd (__repr__ self))) = fst (position self)
  /\ fst (__repr__ (snd (position self))) = fst (__repr__ self).
Proof.
  rewrite repr_preserves, position_preserves. repeat split.
Qed.

(** X13: an instance built from the field defaults alone has an empty
    parent list and no virtual type; [position()] on it raises
    [MissingPotentialError] for the missing type, and [__repr__] returns
    its bare name. *)
Theorem default_instance_behaviour (n : string) :
  fst (parent_sites (default_instance n)) = Return []
  /\ fst (virtual_type (default_instance n)) = Return None
  /\ fst (position (default_instance n)) =
     Raise MissingPotentialError msg_no_virtual_type
  /\ fst (__repr__ (default_instance n)) = Return n.
Proof.
  repeat split.
  rewrite repr_outcome. simpl. rewrite append_empty_r. reflexivity.
Qed.

(** ** The alias table of [model_config] *)

Lemma has_key_app (k : string) (a b : alist) :
  has_key k (a ++ b)%list = has_key k a || has_key k b.
Proof. apply existsb_app. Qed.

Lemma alist_get_app (k : string) (a b : alist) :
  alist_get k (a ++ b)%list =
  match alist_get k a with
  | Some f => Some f
  | None => alist_get k b
  end.
Proof.
  induction a as [ | [k' v] a IH]; simpl; [reflexivity | ].
  destruct (String.eqb k k'); [reflexivity | exact IH].
Qed.

Lemma dict_kwargs_disjoint (b : alist) :
  forall a : alist,
    NoDup (map fst b) ->
    (forall k, In k (map fst b) -> has_key k a = false) ->
    dict_kwargs a b = Built (a ++ b)%list.
Proof.
  induction b as [ | [k v] b IH]; intros a Hnd Hfree.
  - simpl. rewrite app_nil_r. reflexivity.
  - simpl. rewrite (Hfree k) by (left; reflexivity).
    inversion Hnd as [ | k0 ks Hnotin Hnd' ]; subst.
    rewrite IH.
    + rewrite <- app_assoc. reflexivity.
    + exact Hnd'.
    + intros k' Hin. rewrite has_key_app, (Hfree k') by (right; exact Hin).
      simpl. rewrite orb_false_r.
      apply String.eqb_neq. intros ->. exact (Hnotin Hin).
Qed.

Lemma dict_kwargs_collision (b : alist) :
  forall (a : alist) (k : string),
    In k (map fst b) -> has_key k a = true ->
    exists k', dict_kwargs a b = DuplicateKeyword k' /\ In k' (map fst b).
Proof.
  induction b as [ | [k0 v] b IH]; intros a k Hin Hk; [destruct Hin | ].
  simpl. destruct (has_key k0 a) eqn:E0.
  - exists k0. split; [reflexivity | left; reflexivity].
  - destruct Hin as [Heq | Hin].
    + simpl in Heq. subst k0. rewrite Hk in E0. discriminate E0.
    + destruct (IH (a ++ [(k0, v)])%list k Hin) as [k' [E Hin']].
      * rewrite has_key_app, Hk. reflexivity.
      * exists k'. split; [exact E | right; exact Hin'].
Qed.

(** X11: when [Site] declares none of the aliases [charge], [virtual_type]
    and [parent_sites], the alias table is built; it maps each of the three
    to its backing field, keeps every alias of [Site] as it was, and holds
    nothing else. *)
Theorem alias_to_fields_extends_site (site_aliases : alist) :
  (forall k, In k (map fst own_aliases) -> has_key k site_aliases = false) ->
  exists d : alist,
    alias_to_fields site_aliases = Built d
    /\ alist_get "charge" d = Some "charge_"
    /\ alist_get "virtual_type" d = Some "virtual_type_"
    /\ alist_get "parent_sites" d = Some "parent_sites_"
    /\ (forall k f, alist_get k site_aliases = Some f -> alist_get k d = Some f)
    /\ (forall k, alist_get k site_aliases = None ->
                  alist_get k d = alist_get k own_aliases).
Proof.
  intro Hfree.
  assert (Hnone : forall k, has_key k site_aliases = false ->
                            alist_get k site_aliases = None).
  { intros k. induction site_aliases as [ | [k' v] l IH]; simpl;
      [reflexivity | ].
    destruct (String.eqb k k'); simpl; [discriminate | ].
    intro H. apply IH; [ | exact H].
    intros k0 Hin. specialize (Hfree k0 Hin). simpl in Hfree.
    apply orb_false_elim in Hfree. apply Hfree. }
  exists (site_aliases ++ own_aliases)%list.
  split.
  { unfold alias_to_fields. apply dict_kwargs_disjoint; [ | exact Hfree].
    simpl. repeat constructor; simpl; intuition discriminate. }
  repeat split.
  - rewrite alist_get_app, Hnone; [reflexivity | ].
    apply Hfree. simpl. auto.
  - rewrite alist_get_app, Hnone; [reflexivity | ].
    apply Hfree. simpl. auto.
  - rewrite alist_get_app, Hnone; [reflexivity | ].
    apply Hfree. simpl. auto.
  - intros k f H. rewrite alist_get_app, H. reflexivity.
  - intros k H. rewrite alist_get_app, H. reflexivity.
Qed.

Lemma alias_to_fields_extends_site_witness :
  exists d : alist,
    alias_to_fields [("name", "name_"); ("position", "position_")] = Built d
    /\ alist_get "charge" d = Some "charge_"
    /\ alist_get "virtual_type" d = Some "virtual_type_"
    /\ alist_get "parent_sites" d = Some "parent_sites_"
    /\ (forall k f,
           alist_get k [("name", "name_"); ("position", "position_")] = Some f ->
           alist_get k d = Some f)
    /\ (forall k,
           alist_get k [("name", "name_"); ("position", "position_")] = None ->
           alist_get k d = alist_get k own_aliases).
Proof.
  apply (alias_to_fields_extends_site
           [("name", "name_"); ("position", "position_")]).
  intros k Hin. simpl in Hin.
  destruct Hin as [<- | [<- | [<- | []]]]; reflexivity.
Defined.

(** X12: when [Site] already declares one of the aliases [charge],
    [virtual_type] or [parent_sites], building the alias table raises the
    duplicate-keyword [TypeError], naming one of the three, and no table is
    built. *)
Theorem alias_to_fields_collision (site_aliases : alist) (k : string) :
  In k (map fst own_aliases) ->
  has_key k site_aliases = true ->
  (exists k' : string,
      alias_to_fields site_aliases = DuplicateKeyword k'
      /\ In k' (map fst own_aliases))
  /\ forall d : alist, alias_to_fields site_aliases <> Built d.
Proof.
  intros Hin Hk.
  destruct (dict_kwargs_collision own_aliases site_aliases k Hin Hk)
    as [k' [E Hin']].
  split.
  - exists k'. split; [exact E | exact Hin'].
  - intros d Hd. unfold alias_to_fields in Hd. rewrite E in Hd.
    discriminate Hd.
Qed.

Lemma alias_to_fields_collision_witness :
  (exists k' : string,
      alias_to_fields [("name", "name_"); ("charge", "charge_")] =
        DuplicateKeyword k'
      /\ In k' (map fst own_aliases))
  /\ forall d : alist,
       alias_to_fields [("name", "name_"); ("charge", "charge_")] <> Built d.
Proof.
  apply (alias_to_fields_collision
           [("name", "name_"); ("charge", "charge_")] "charge").
  - simpl. left. reflexivity.
  - reflexivity.
Defined.
